(** * The external-trigger example client (examples/external-trigger-example.py)

    A shallow embedding of the Python script that triggers a job through the
    JobRunr External Trigger API and polls its status until it finishes, with
    the properties its design document states about it.

    The script talks to three things outside itself: the HTTP service (through
    [requests]), the clock ([time.sleep]) and standard output ([print]).  Each
    of them is an effect here: a run threads a [World] that records, in order,
    every request sent, every sleep and every line printed, and a Python
    exception is the [Raise] outcome of a computation. *)

From stdpp Require Import gmap strings list fin_maps.
From Stdlib Require Import ZArith Lia.

#[local] Set Warnings "-register-all".
#[local] Open Scope Z_scope.

(** ** Values decoded from JSON

    [response.json()] yields Python values: [None], [bool], [int], [float],
    [str], [list] and [dict] with [str] keys.  A float is kept as the dyadic
    number [m * 2^e] it denotes (or an infinity, or a NaN); the script only
    tests floats for truth and hands them to the formatter. *)

Inductive pyfloat :=
| FFinite (m e : Z)
| FInf (negative : bool)
| FNaN.

Inductive JSON :=
| JNull
| JBool (b : bool)
| JInt (z : Z)
| JFloat (f : pyfloat)
| JStr (s : string)
| JArr (items : list JSON)
| JObj (d : gmap string JSON).

(** ** Exceptions *)

Inductive exn :=
| HTTPError (status_code : Z)     (* requests.HTTPError, from raise_for_status *)
| ConnectionError                 (* requests: no response was obtained *)
| JSONDecodeError                 (* requests: the body is not JSON *)
| KeyError (key : string)
| TypeError
| ValueError
| OverflowError
| RecursionError
| AttributeError
| TimeoutError (seconds : Z)      (* "Job did not complete within <seconds> seconds" *)
| SystemExit (code : Z).          (* sys.exit(code) *)

(** ** The outside world *)

(** Why the JSON decoder gives up on a body that is JSON: an integer literal
    longer than the interpreter converts ([ValueError]), or a nesting deeper
    than its recursion limit ([RecursionError]). *)
Inductive Refusal :=
| IntTooLong
| TooDeep.

(** What the service answers to one request: nothing usable, or a response
    with its status code and its body, [None] when the body is not JSON, or
    a response whose body the decoder refuses. *)
Inductive Reply :=
| NoReply
| Response (status_code : Z) (body : option JSON)
| Refused (status_code : Z) (why : Refusal).

(** A printed line, kept as the values that are formatted into it. *)
Inductive Line :=
| Text (s : string)
| StatusLine (attempt : Z) (job_name job_type job_status : JSON)
| BatchLine (succeeded failed pending progress : JSON)
| TriggeringLine (job_id : string)
| ResponseLine (trigger_response : JSON)
| TriggeredLine
| TriggerFailedLine (e : exn)
| FinishedLine (job_status : JSON)
| JsonDump (final_status : JSON)
| TimeoutLine (e : exn)
| StatusErrorLine (e : exn).

Inductive Event :=
| Post (url : string)
| Get (url : string)
| Sleep (seconds : Z)
| Print (line : Line).

(** [sent] counts the requests issued so far; [trace] lists the events,
    oldest first. *)
Record World := mkWorld { sent : nat; trace : list Event }.

Definition emit (e : Event) (w : World) : World :=
  mkWorld (sent w) (trace w ++ [e]).

(** ** Computations: state and exceptions *)

Inductive Result (A : Type) :=
| Ok (a : A)
| Raise (e : exn).
Arguments Ok {A} a.
Arguments Raise {A} e.

Definition M (A : Type) : Type := World -> Result A * World.

Definition ret {A} (a : A) : M A := fun w => (Ok a, w).
Definition raise {A} (e : exn) : M A := fun w => (Raise e, w).
Definition bind {A B} (c : M A) (k : A -> M B) : M B :=
  fun w => match c w with
           | (Ok a, w') => k a w'
           | (Raise e, w') => (Raise e, w')
           end.

Notation "'let*' x := c 'in' k" := (bind c (fun x => k))
  (at level 10, x name, c at level 100, k at level 200, only parsing).

(** [try: c except handler]: a handler that answers [None] does not catch. *)
Definition try_except {A} (c : M A) (handler : exn -> option (M A)) : M A :=
  fun w => match c w with
           | (Ok a, w') => (Ok a, w')
           | (Raise e, w') =>
               match handler e with
               | Some h => h w'
               | None => (Raise e, w')
               end
           end.

(** ** Python primitives the script uses *)

(** [bool(v)] *)
Definition truthy (v : JSON) : bool :=
  match v with
  | JNull => false
  | JBool b => b
  | JInt z => negb (z =? 0)
  | JFloat (FFinite m _) => negb (m =? 0)
  | JFloat _ => true
  | JStr s => negb (String.eqb s "")
  | JArr items => match items with [] => false | _ => true end
  | JObj d => negb (bool_decide (d = ∅))
  end.

(** [v[key]] with a string key: only a dict can be indexed that way. *)
Definition getitem (v : JSON) (key : string) : M JSON :=
  match v with
  | JObj d => match d !! key with
              | Some x => ret x
              | None => raise (KeyError key)
              end
  | _ => raise TypeError
  end.

(** [v.get(key, default)]: a method of dicts only. *)
Definition dict_get (v : JSON) (key : string) (dflt : JSON) : M JSON :=
  match v with
  | JObj d => ret (default dflt (d !! key))
  | _ => raise AttributeError
  end.

(** An [int] that converts to a [float]: one that does not round to an
    infinity. *)
Definition fits_float (z : Z) : bool := Z.abs z <? 2 ^ 1024 - 2 ^ 970.

(** [format(v, ".1f")]: numbers are formatted, an [int] through its
    conversion to [float], which overflows for a large one; [str] rejects
    the format code, anything else has no such format. *)
Definition format_1f (v : JSON) : M JSON :=
  match v with
  | JInt z => if fits_float z then ret v else raise OverflowError
  | JFloat _ | JBool _ => ret v
  | JStr _ => raise ValueError
  | _ => raise TypeError
  end.

(** [v == s] for a string literal [s] *)
Definition eq_str (v : JSON) (s : string) : bool :=
  match v with
  | JStr t => String.eqb t s
  | _ => false
  end.

Definition print (l : Line) : M unit := fun w => (Ok tt, emit (Print l) w).

(** [time.sleep(secs)] converts the seconds to nanoseconds on 64 bits and
    then refuses a negative length: [sleep_refused secs] is the exception it
    raises instead of sleeping. *)
Definition sleep_max : Z := 9223372036.

Definition sleep_refused (secs : Z) : option exn :=
  if (secs <? - sleep_max) || (sleep_max <? secs) then Some OverflowError
  else if secs <? 0 then Some ValueError
  else None.

Definition time_sleep (secs : Z) : M unit :=
  match sleep_refused secs with
  | Some e => raise e
  | None => fun w => (Ok tt, emit (Sleep secs) w)
  end.

Definition sys_exit {A} (code : Z) : M A := raise (SystemExit code).

(** ** The service

    [requests.post] and [requests.get] send one request each.  The service is
    a parameter: [service n] is its answer to the [n]-th request of the run
    (counting from 0). *)

Section Client.

Variable service : nat -> Reply.

Definition send (request : Event) : M Reply :=
  fun w => (Ok (service (sent w)), mkWorld (S (sent w)) (trace w ++ [request])).

(** A request that gets no response raises inside [requests]. *)
Definition requests_post (url : string) : M Reply :=
  let* r := send (Post url) in
  match r with NoReply => raise ConnectionError | _ => ret r end.

Definition requests_get (url : string) : M Reply :=
  let* r := send (Get url) in
  match r with NoReply => raise ConnectionError | _ => ret r end.

(** [response.raise_for_status()]: client and server error codes raise. *)
Definition raise_for_status (response : Reply) : M unit :=
  match response with
  | Response status_code _ | Refused status_code _ =>
      if (400 <=? status_code) && (status_code <? 600)
      then raise (HTTPError status_code)
      else ret tt
  | NoReply => raise ConnectionError
  end.

(** [response.json()] *)
Definition response_json (response : Reply) : M JSON :=
  match response with
  | Response _ (Some v) => ret v
  | Refused _ IntTooLong => raise ValueError
  | Refused _ TooDeep => raise RecursionError
  | _ => raise JSONDecodeError
  end.

(** ** class ExternalTriggerClient *)

Definition slash : Ascii.ascii := Ascii.ascii_of_nat 47.

(** [s.rstrip("/")] *)
Fixpoint rstrip_slash (s : string) : string :=
  match s with
  | EmptyString => EmptyString
  | String c rest =>
      match rstrip_slash rest with
      | EmptyString => if Ascii.eqb c slash then EmptyString else String c EmptyString
      | rest' => String c rest'
      end
  end.

Record ExternalTriggerClient := mkClient { base_url : string; api_path : string }.

Definition __init__ (base_url : string) : ExternalTriggerClient :=
  let base_url := rstrip_slash base_url in
  mkClient base_url (base_url +:+ "/api/external-trigger").

Definition trigger_url (self : ExternalTriggerClient) (job_id : string) : string :=
  api_path self +:+ "/" +:+ job_id +:+ "/trigger".

Definition status_url (self : ExternalTriggerClient) (job_id : string) : string :=
  api_path self +:+ "/" +:+ job_id +:+ "/status".

Definition trigger_job (self : ExternalTriggerClient) (job_id : string) : M JSON :=
  let url := trigger_url self job_id in
  let* response := requests_post url in
  let* _ := raise_for_status response in
  response_json response.

Definition get_job_status (self : ExternalTriggerClient) (job_id : string) : M JSON :=
  let url := status_url self job_id in
  let* response := requests_get url in
  let* _ := raise_for_status response in
  response_json response.

Definition _print_status (attempt : Z) (status : JSON) : M unit :=
  let* job_name := dict_get status "jobName" (JStr "Unknown") in
  let* job_type := dict_get status "jobType" (JStr "Unknown") in
  let* job_status := dict_get status "status" (JStr "Unknown") in
  let* _ := print (StatusLine attempt job_name job_type job_status) in
  let* batch_progress := dict_get status "batchProgress" JNull in
  if truthy batch_progress then
    let* total := getitem batch_progress "total" in
    let* succeeded := getitem batch_progress "succeeded" in
    let* failed := getitem batch_progress "failed" in
    let* pending := getitem batch_progress "pending" in
    let* progress := getitem batch_progress "progress" in
    let* shown := format_1f progress in
    print (BatchLine succeeded failed pending shown)
  else ret tt.

(** [job_status in ("SUCCEEDED", "FAILED")] *)
Definition is_terminal (job_status : JSON) : bool :=
  eq_str job_status "SUCCEEDED" || eq_str job_status "FAILED".

(** One pass through the body of the [for] loop of [wait_for_completion]:
    [Some status] when the body returns from the function, [None] when it
    runs to its end. *)
Definition poll_once (self : ExternalTriggerClient) (job_id : string)
    (sleep_interval : Z) (verbose : bool) (attempt : Z) : M (option JSON) :=
  let* status := get_job_status self job_id in
  let* job_status := getitem status "status" in
  let* _ := (if verbose then _print_status attempt status else ret tt) in
  if is_terminal job_status then ret (Some status)
  else let* _ := time_sleep sleep_interval in ret None.

(** The loop over [range(1, max_attempts + 1)], [remaining] values of
    [attempt] left, and the [raise] that follows it. *)
Fixpoint poll_loop (self : ExternalTriggerClient) (job_id : string)
    (max_attempts sleep_interval : Z) (verbose : bool)
    (remaining : nat) (attempt : Z) : M JSON :=
  match remaining with
  | O => raise (TimeoutError (max_attempts * sleep_interval))
  | S remaining' =>
      let* returned := poll_once self job_id sleep_interval verbose attempt in
      match returned with
      | Some status => ret status
      | None => poll_loop self job_id max_attempts sleep_interval verbose
                  remaining' (attempt + 1)
      end
  end.

Definition wait_for_completion (self : ExternalTriggerClient) (job_id : string)
    (max_attempts sleep_interval : Z) (verbose : bool) : M JSON :=
  poll_loop self job_id max_attempts sleep_interval verbose
    (Z.to_nat max_attempts) 1.

(** ** main *)

Definition rule : string := "==================================================".

Definition main (argv : list string) : M unit :=
  match argv with
  | [_; job_id] =>
      let* _ := print (Text rule) in
      let* _ := print (Text "External Trigger API Example (Python)") in
      let* _ := print (Text rule) in
      let* _ := print (Text "") in
      let client := __init__ "http://localhost:8080" in
      let* _ := print (TriggeringLine job_id) in
      let* _ := try_except
           (let* trigger_response := trigger_job client job_id in
            let* _ := print (ResponseLine trigger_response) in
            print TriggeredLine)
           (fun e => match e with
                     | HTTPError _ => Some (let* _ := print (TriggerFailedLine e) in sys_exit 1)
                     | _ => None
                     end) in
      let* _ := print (Text "") in
      let* _ := print (Text "Step 2: Monitoring job status...") in
      let* _ := print (Text "") in
      try_except
        (let* final_status := wait_for_completion client job_id 60 2 true in
         let* _ := print (Text "") in
         let* _ := print (Text rule) in
         let* job_status := getitem final_status "status" in
         let* _ := print (FinishedLine job_status) in
         let* _ := print (Text rule) in
         let* _ := print (Text "") in
         let* _ := print (Text "Full response:") in
         let* _ := print (JsonDump final_status) in
         let* job_status := getitem final_status "status" in
         if eq_str job_status "SUCCEEDED" then sys_exit 0 else sys_exit 1)
        (fun e => match e with
                  | TimeoutError _ => Some (let* _ := print (TimeoutLine e) in sys_exit 2)
                  | HTTPError _ => Some (let* _ := print (StatusErrorLine e) in sys_exit 1)
                  | _ => None
                  end)
  | _ =>
      let* _ := print (Text "Usage: python external-trigger-example.py <job-id>") in
      let* _ := print (Text "") in
      let* _ := print (Text "Example: python external-trigger-example.py 123e4567-e89b-12d3-a456-426614174000") in
      sys_exit 1
  end.

(** The exit status of the process that runs [main]: the code given to
    [sys.exit], 1 for an exception nobody caught, 0 otherwise. *)
Definition exit_status (r : Result unit) : Z :=
  match r with
  | Ok _ => 0
  | Raise (SystemExit code) => code
  | Raise _ => 1
  end.

End Client.

(** ** Vocabulary of the properties *)

Definition is_get (e : Event) : bool := match e with Get _ => true | _ => false end.
Definition is_sleep (e : Event) : bool := match e with Sleep _ => true | _ => false end.
Definition is_print (e : Event) : bool := match e with Print _ => true | _ => false end.
Definition not_print (e : Event) : bool := negb (is_print e).

(** How many events of a kind a trace holds. *)
Definition count (kind : Event -> bool) (t : list Event) : nat :=
  length (List.filter kind t).

(** The seconds slept over a trace. *)
Fixpoint slept (t : list Event) : Z :=
  match t with
  | [] => 0
  | Sleep seconds :: t' => seconds + slept t'
  | _ :: t' => slept t'
  end.

(** What [get_job_status] makes of the reply to its request. *)
Definition decode (r : Reply) : Result JSON :=
  match r with
  | NoReply => Raise ConnectionError
  | Response status_code body =>
      if (400 <=? status_code) && (status_code <? 600)
      then Raise (HTTPError status_code)
      else match body with
           | Some v => Ok v
           | None => Raise JSONDecodeError
           end
  | Refused status_code why =>
      if (400 <=? status_code) && (status_code <? 600)
      then Raise (HTTPError status_code)
      else Raise (match why with IntTooLong => ValueError | TooDeep => RecursionError end)
  end.

(** The [status] field of a decoded payload, when it has one. *)
Definition status_of (v : JSON) : option JSON :=
  match v with
  | JObj d => d !! "status"
  | _ => None
  end.

(** A payload whose status is terminal, respectively present and not
    terminal. *)
Definition finished (v : JSON) : bool :=
  match status_of v with Some s => is_terminal s | None => false end.

Definition pending (v : JSON) : bool :=
  match status_of v with Some s => negb (is_terminal s) | None => false end.

(** What [_print_status] does with a payload, run on its own: its outcome
    and the lines it prints. *)
Definition display (attempt : Z) (status : JSON) : Result unit * list Event :=
  let r := _print_status attempt status (mkWorld 0 []) in
  (fst r, trace (snd r)).

Definition displayable (attempt : Z) (status : JSON) : Prop :=
  fst (display attempt status) = Ok tt.

(** The payloads the data model allows: an object with a [status], whose
    [batchProgress], when present, is an object with the four counters and a
    numeric [progress], within the range of a [float]. *)
Definition is_number (v : JSON) : bool :=
  match v with JInt z => fits_float z | JFloat _ => true | _ => false end.

Definition batch_progress_ok (v : JSON) : bool :=
  match v with
  | JObj b =>
      bool_decide (is_Some (b !! "total")) && bool_decide (is_Some (b !! "succeeded"))
      && bool_decide (is_Some (b !! "failed")) && bool_decide (is_Some (b !! "pending"))
      && match b !! "progress" with Some p => is_number p | None => false end
  | _ => false
  end.

Definition StatusRecord (v : JSON) : bool :=
  match v with
  | JObj d =>
      bool_decide (is_Some (d !! "status"))
      && match d !! "batchProgress" with
         | Some b => batch_progress_ok b
         | None => true
         end
  | _ => false
  end.



(** The pieces a request URL is put together from, in order, and whether the
    seam after the first [i] pieces has a separator on both sides. *)
Definition url_pieces (base_url job_id last : string) : list string :=
  [rstrip_slash base_url; "/api/external-trigger"; "/"; job_id; last].

Fixpoint concat_str (pieces : list string) : string :=
  match pieces with
  | [] => EmptyString
  | p :: ps => p +:+ concat_str ps
  end.

Fixpoint ends_with_slash (s : string) : bool :=
  match s with
  | EmptyString => false
  | String c EmptyString => Ascii.eqb c slash
  | String _ rest => ends_with_slash rest
  end.

Definition starts_with_slash (s : string) : bool :=
  match s with
  | String c _ => Ascii.eqb c slash
  | EmptyString => false
  end.

Definition doubled_at (i : nat) (pieces : list string) : bool :=
  ends_with_slash (concat_str (firstn i pieces))
  && starts_with_slash (concat_str (skipn i pieces)).

(** Appending [n] separators to a base URL. *)
Fixpoint with_slashes (b : string) (n : nat) : string :=
  match n with
  | O => b
  | S n' => with_slashes b n' +:+ "/"
  end.

(** Two worlds that differ by printed lines at most. *)
Definition same_but_prints (loud quiet : World) : Prop :=
  sent loud = sent quiet
  /\ List.filter not_print (trace loud) = List.filter not_print (trace quiet).

(** The world [main] leaves when it calls [trigger_job], and the world in
    which it starts to wait once the trigger was acknowledged with [ack]. *)
Definition announce (job_id : string) (w : World) : World :=
  emit (Print (TriggeringLine job_id))
    (emit (Print (Text ""))
       (emit (Print (Text rule))
          (emit (Print (Text "External Trigger API Example (Python)"))
             (emit (Print (Text rule)) w)))).

Definition monitoring (ack : JSON) (w : World) : World :=
  emit (Print (Text ""))
    (emit (Print (Text "Step 2: Monitoring job status..."))
       (emit (Print (Text ""))
          (emit (Print TriggeredLine)
             (emit (Print (ResponseLine ack)) w)))).

(** ** Services used as examples *)

Definition w0 : World := mkWorld 0 [].

Definition enqueued : JSON := JObj {[ "status" := JStr "ENQUEUED" ]}.
Definition succeeded : JSON := JObj {[ "status" := JStr "SUCCEEDED" ]}.
Definition failed : JSON := JObj {[ "status" := JStr "FAILED" ]}.


Definition localhost : ExternalTriggerClient := __init__ "http://localhost:8080".

Definition always (v : JSON) (n : nat) : Reply := Response 200 (Some v).

(** The replies of [script] in order, then [last] for ever. *)
Definition scripted (script : list Reply) (last : Reply) (n : nat) : Reply :=
  default last (script !! n).

Definition ok (v : JSON) : Reply := Response 200 (Some v).

(** ENQUEUED twice, then FAILED. *)
Definition two_then_failed : nat -> Reply :=
  scripted [ok enqueued; ok enqueued] (ok failed).




(** The trigger is acknowledged, then the statuses follow. *)
Definition triggered_then (statuses : list Reply) (last : Reply) : nat -> Reply :=
  scripted (ok (JObj {[ "triggered" := JBool true ]}) :: statuses) last.



(** The job is unknown: every request is answered with 404. *)
Definition not_found (n : nat) : Reply := Response 404 None.

Definition argv : list string := ["external-trigger-example.py"; "job"].

(** What one pass of the loop does once its request is answered, from what
    the reply decoded to: the outcome of the pass and the events that follow
    the request. *)
Definition after_request (sleep_interval : Z) (verbose : bool) (attempt : Z)
    (decoded : Result JSON) : Result (option JSON) * list Event :=
  match decoded with
  | Raise e => (Raise e, [])
  | Ok v =>
      match status_of v with
      | None => (Raise (match v with JObj _ => KeyError "status" | _ => TypeError end), [])
      | Some s =>
          let shown := if verbose then display attempt v else (Ok tt, []) in
          match fst shown with
          | Raise e => (Raise e, snd shown)
          | Ok _ =>
              if is_terminal s then (Ok (Some v), snd shown)
              else match sleep_refused sleep_interval with
                   | Some e => (Raise e, snd shown)
                   | None => (Ok None, snd shown ++ [Sleep sleep_interval])
                   end
          end
      end
  end.

(** The events a wait may add to a trace: status requests for its job,
    sleeps of its interval, printed lines. *)
Definition polling_event (url : string) (sleep_interval : Z) (e : Event) : Prop :=
  e = Get url \/ e = Sleep sleep_interval \/ exists line, e = Print line.

Definition is_post (e : Event) : bool := match e with Post _ => true | _ => false end.

(** The exceptions of a request: what [trigger_job] and [get_job_status]
    can raise. *)
Definition request_error (e : exn) : Prop :=
  e = ConnectionError \/ e = JSONDecodeError \/ e = ValueError \/ e = RecursionError
  \/ exists code, e = HTTPError code /\ 400 <= code < 600.

(** The keys [_print_status] reads from a batch progress, in the order it
    reads them, and the first of them that a batch progress lacks. *)
Definition batch_keys : list string :=
  ["total"; "succeeded"; "failed"; "pending"; "progress"].



(** The lines [main] prints when it is not given exactly one argument. *)
Definition usage : list Event :=
  [Print (Text "Usage: python external-trigger-example.py <job-id>");
   Print (Text "");
   Print (Text "Example: python external-trigger-example.py 123e4567-e89b-12d3-a456-426614174000")].

(** A string of [n] separators. *)
Fixpoint slashes (n : nat) : string :=
  match n with
  | O => EmptyString
  | S n' => String slash (slashes n')
  end.

(** ** Evaluation on concrete runs *)


(** [run = (r, snd run)], where [fst run] evaluates to [r]. *)
#[local] Ltac computed_run :=
  repeat match goal with x := _ |- _ => subst x end;
  match goal with
  | |- ?run = (?r, snd ?run) =>
      apply (eq_trans (surjective_pairing run));
      apply (f_equal (fun x => (x, snd run)));
      vm_compute; reflexivity
  end.

(** * Properties *)

(** ** Counting events *)

Lemma count_app kind t1 t2 : count kind (t1 ++ t2) = (count kind t1 + count kind t2)%nat.
Proof. unfold count. now rewrite List.filter_app, length_app. Qed.

Lemma slept_app t1 t2 : slept (t1 ++ t2) = slept t1 + slept t2.
Proof.
  induction t1 as [|e t1 IH]; simpl; [reflexivity|].
  destruct e; rewrite IH; lia.
Qed.


(** ** The lengths [time.sleep] accepts *)

Lemma sleep_accepted secs :
  sleep_refused secs = None <-> 0 <= secs <= sleep_max.
Proof.
  unfold sleep_refused.
  destruct ((secs <? - sleep_max) || (sleep_max <? secs)) eqn:Hrange;
    [|destruct (secs <? 0) eqn:Hneg];
    unfold sleep_max in *; split; intros H;
    first [discriminate H|reflexivity|lia].
Qed.

Lemma sleep_refused_exn secs e :
  sleep_refused secs = Some e -> e = OverflowError \/ e = ValueError.
Proof.
  unfold sleep_refused.
  destruct ((secs <? - sleep_max) || (sleep_max <? secs)); [intros [= <-]; auto|].
  destruct (secs <? 0); [intros [= <-]; auto|discriminate].
Qed.

(** ** The effects, one at a time *)

Section Steps.

Variable service : nat -> Reply.
Variables (self : ExternalTriggerClient) (job_id : string).

Lemma get_job_status_decode w :
  get_job_status service self job_id w =
    (decode (service (sent w)),
     mkWorld (S (sent w)) (trace w ++ [Get (status_url self job_id)])).
Proof.
  unfold get_job_status, requests_get, send, bind, decode. simpl.
  destruct (service (sent w)) as [|code body|code why]; simpl; [reflexivity| |];
    unfold raise_for_status, bind;
    (destruct ((400 <=? code) && (code <? 600)); simpl; [reflexivity|]).
  - destruct body; reflexivity.
  - destruct why; reflexivity.
Qed.

End Steps.

(** [_print_status] only appends lines: what it does in a world is what
    [display] says, after the events already there. *)
Lemma _print_status_frame attempt status w :
  _print_status attempt status w =
    (fst (display attempt status),
     mkWorld (sent w) (trace w ++ snd (display attempt status))).
Proof.
  destruct w as [n t].
  unfold display, _print_status, dict_get, getitem, format_1f, print, emit, bind, ret, raise.
  destruct status; simpl; try (rewrite app_nil_r; reflexivity).
  repeat (case_match; simpl in *; simplify_eq);
    simpl; rewrite <- ?app_assoc; reflexivity.
Qed.

Section Polling.

Variable service : nat -> Reply.
Variables (self : ExternalTriggerClient) (job_id : string).
Variables (max_attempts sleep_interval : Z) (verbose : bool).



Lemma status_of_getitem v s w :
  status_of v = Some s -> getitem v "status" w = (Ok s, w).
Proof. destruct v; simpl; try discriminate. now intros ->. Qed.





End Polling.

(** ** What the display adds to a trace: printed lines only *)

Lemma display_prints attempt status :
  exists lines, snd (display attempt status) = map Print lines.
Proof.
  unfold display, _print_status, dict_get, getitem, format_1f, print, emit, bind, ret, raise.
  destruct status; simpl; try (now exists []).
  repeat (case_match; simpl in *; simplify_eq); simpl;
    first [ now exists [StatusLine attempt (default (JStr "Unknown") (d !! "jobName"))
                          (default (JStr "Unknown") (d !! "jobType"))
                          (default (JStr "Unknown") (d !! "status"))]
          | eexists [_; _]; reflexivity ].
Qed.

Lemma count_map_print kind lines :
  (forall l, kind (Print l) = false) -> count kind (map Print lines) = 0%nat.
Proof.
  intros Hk. unfold count. induction lines as [|l ls IH]; simpl; [reflexivity|].
  now rewrite Hk.
Qed.

Lemma slept_map_print lines : slept (map Print lines) = 0.
Proof. induction lines; simpl; auto. Qed.



(** A payload of the data model is printed without an exception. *)
Lemma StatusRecord_displayable attempt v :
  StatusRecord v = true -> displayable attempt v.
Proof.
  unfold displayable, display, _print_status, dict_get, getitem, format_1f,
    print, emit, bind, ret, raise.
  destruct v as [| | | | | |d]; try discriminate.
  cbn [StatusRecord]. intros [_ Hb]%andb_true_iff.
  destruct (d !! "batchProgress") as [b|]; [|reflexivity].
  destruct b as [| | | | | |b]; try discriminate.
  cbn [batch_progress_ok] in Hb.
  repeat match type of Hb with
         | _ && _ = true => apply andb_true_iff in Hb as [Hb ?]
         end.
  repeat match goal with
         | H : bool_decide (is_Some _) = true |- _ =>
             apply bool_decide_eq_true in H as [? H]
         end.
  destruct (b !! "progress") as [p|] eqn:Hp; [|discriminate].
  assert (Hne : b <> ∅) by (intros ->; rewrite lookup_empty in Hp; discriminate).
  simpl. rewrite bool_decide_eq_false_2 by assumption. simpl.
  repeat match goal with H : b !! _ = Some _ |- _ => rewrite H; clear H end.
  destruct p; try discriminate; try reflexivity.
  cbn [is_number] in *. now rewrite H.
Qed.

Section PendingEvents.

Variables (url : string) (sleep_interval : Z) (verbose : bool).






End PendingEvents.

(** ** The bounded wait *)

Section Waiting.

Variable service : nat -> Reply.
Variables (self : ExternalTriggerClient) (job_id : string).
Variables (max_attempts sleep_interval : Z) (verbose : bool).






End Waiting.

(** ** Decoding a status response *)

Section Decoding.

Variable service : nat -> Reply.
Variables (self : ExternalTriggerClient) (job_id : string).



End Decoding.

(** ** A wait without attempts *)

Section NoAttempts.

Variable service : nat -> Reply.
Variables (self : ExternalTriggerClient) (job_id : string).


End NoAttempts.

(** ** Request URLs *)

Lemma append_cons c (s t : string) : String c s +:+ t = String c (s +:+ t).
Proof. reflexivity. Qed.

Lemma append_empty_r (s : string) : s +:+ "" = s.
Proof. induction s as [|c s IH]; [reflexivity|]. now rewrite append_cons, IH. Qed.

Lemma append_assoc_str (s t u : string) : (s +:+ t) +:+ u = s +:+ (t +:+ u).
Proof. induction s as [|c s IH]; [reflexivity|]. now rewrite !append_cons, IH. Qed.

Lemma rstrip_slash_append_slash (s : string) :
  rstrip_slash (s +:+ "/") = rstrip_slash s.
Proof.
  induction s as [|c s IH]; [reflexivity|].
  rewrite append_cons. cbn [rstrip_slash]. now rewrite IH.
Qed.

Lemma rstrip_slash_with_slashes (b : string) (n : nat) :
  rstrip_slash (with_slashes b n) = rstrip_slash b.
Proof.
  induction n as [|n IH]; [reflexivity|].
  cbn [with_slashes]. now rewrite rstrip_slash_append_slash.
Qed.

Lemma rstrip_slash_no_trailing (s : string) :
  ends_with_slash (rstrip_slash s) = false.
Proof.
  induction s as [|c s IH]; [reflexivity|].
  cbn [rstrip_slash]. destruct (rstrip_slash s) as [|c' r] eqn:Hr.
  - destruct (Ascii.eqb c slash) eqn:Hc; [reflexivity|exact Hc].
  - exact IH.
Qed.

Lemma ends_with_slash_append (s t : string) :
  t <> EmptyString -> ends_with_slash (s +:+ t) = ends_with_slash t.
Proof.
  intros Ht. induction s as [|c s IH]; [reflexivity|].
  rewrite append_cons. cbn [ends_with_slash].
  destruct (s +:+ t) as [|c' r] eqn:Hst; [|exact IH].
  destruct s; [contradiction|discriminate].
Qed.

Lemma starts_with_slash_append (s t : string) :
  s <> EmptyString -> starts_with_slash (s +:+ t) = starts_with_slash s.
Proof. destruct s; [contradiction|reflexivity]. Qed.

(** C8, as the code has it.  The trailing separators of the base URL are
    stripped when the client is built: a base URL and the same with
    separators appended give the same request URLs, and no request URL has a
    doubled separator where the base URL meets the API path.  Where the job
    identifier is put in, there is none either when the identifier is not
    empty and neither starts nor ends with a separator. *)
Theorem base_url_trailing_slashes_stripped (b job_id : string) (n : nat) :
  trigger_url (__init__ (with_slashes b n)) job_id = trigger_url (__init__ b) job_id
  /\ status_url (__init__ (with_slashes b n)) job_id = status_url (__init__ b) job_id
  /\ trigger_url (__init__ b) job_id = concat_str (url_pieces b job_id "/trigger")
  /\ status_url (__init__ b) job_id = concat_str (url_pieces b job_id "/status")
  /\ (forall last i, (i <= 2)%nat -> doubled_at i (url_pieces b job_id last) = false)
  /\ (job_id <> EmptyString ->
      starts_with_slash job_id = false ->
      ends_with_slash job_id = false ->
      forall last i, doubled_at i (url_pieces b job_id last) = false).
Proof.
  assert (Hbase : forall last i, (i <= 2)%nat ->
                    doubled_at i (url_pieces b job_id last) = false).
  { intros last i Hi. unfold doubled_at, url_pieces.
    destruct i as [|[|[|i]]]; [reflexivity| | |lia].
    - cbn [firstn concat_str]. now rewrite append_empty_r, rstrip_slash_no_trailing.
    - cbn [firstn concat_str]. rewrite ends_with_slash_append by discriminate.
      reflexivity. }
  unfold trigger_url, status_url, __init__. cbn [api_path].
  rewrite rstrip_slash_with_slashes.
  repeat split; auto.
  - unfold url_pieces. cbn [concat_str].
    now rewrite append_empty_r, !append_assoc_str.
  - unfold url_pieces. cbn [concat_str].
    now rewrite append_empty_r, !append_assoc_str.
  - intros Hne Hstart Hend last i.
    destruct (le_lt_dec i 2) as [Hi|Hi]; [now apply Hbase|].
    unfold doubled_at, url_pieces.
    destruct i as [|[|[|[|[|i]]]]]; try lia.
    + cbn [firstn skipn concat_str].
      rewrite starts_with_slash_append by assumption.
      rewrite Hstart. apply andb_false_r.
    + cbn [firstn skipn concat_str].
      replace (rstrip_slash b +:+ "/api/external-trigger" +:+ "/" +:+ job_id +:+ "")
        with ((rstrip_slash b +:+ "/api/external-trigger" +:+ "/") +:+ job_id)
        by (now rewrite append_empty_r, !append_assoc_str).
      rewrite ends_with_slash_append by assumption.
      now rewrite Hend.
    + cbn [skipn]. assert (Hd : drop i (@nil string) = []) by now destruct i.
      rewrite Hd. apply andb_false_r.
Qed.

(** ** The verbose flag *)

Lemma status_of_none_getitem v w :
  status_of v = None ->
  getitem v "status" w
    = (Raise (match v with JObj _ => KeyError "status" | _ => TypeError end), w).
Proof. destruct v; simpl; try reflexivity. now intros ->. Qed.


Lemma count_without_prints kind t :
  (forall l, kind (Print l) = false) ->
  count kind (List.filter not_print t) = count kind t.
Proof.
  intros Hk. unfold count. induction t as [|e t IH]; [reflexivity|].
  destruct e; simpl; rewrite ?Hk; try destruct (kind _); simpl;
    rewrite ?IH; reflexivity.
Qed.

Lemma slept_without_prints t : slept (List.filter not_print t) = slept t.
Proof.
  induction t as [|e t IH]; [reflexivity|].
  destruct e; simpl; now rewrite ?IH.
Qed.

Section Verbosity.

Variable service : nat -> Reply.
Variables (self : ExternalTriggerClient) (job_id : string).
Variables (max_attempts sleep_interval : Z).

(** Every payload with a status that the service sends can be printed. *)
Hypothesis payloads_displayable :
  forall n attempt v,
    decode (service n) = Ok v -> status_of v <> None -> displayable attempt v.






End Verbosity.

(** ** The command-line flow *)

Section Flow.

Variable service : nat -> Reply.

(** Only a payload with a terminal status leaves the loop by [return]. *)
Lemma poll_once_returns_finished self job_id sleep_interval verbose attempt w v w' :
  poll_once service self job_id sleep_interval verbose attempt w = (Ok (Some v), w') ->
  finished v = true.
Proof.
  unfold poll_once, bind. rewrite get_job_status_decode.
  destruct (decode (service (sent w))) as [u|e]; [|discriminate].
  destruct (status_of u) as [s|] eqn:Hs.
  - rewrite (status_of_getitem _ _ _ Hs).
    destruct (if verbose then _print_status attempt u else ret tt) as [[[]|e] w1];
      [|discriminate].
    destruct (is_terminal s) eqn:Ht.
    + unfold ret. intros [= <- _]. unfold finished. now rewrite Hs.
    + destruct (time_sleep sleep_interval w1) as [[[]|e] w2]; discriminate.
  - rewrite status_of_none_getitem by assumption. discriminate.
Qed.

Lemma wait_returns_finished self job_id max_attempts sleep_interval verbose w v w' :
  wait_for_completion service self job_id max_attempts sleep_interval verbose w = (Ok v, w') ->
  finished v = true.
Proof.
  unfold wait_for_completion. generalize 1 as attempt. revert w.
  induction (Z.to_nat max_attempts) as [|r IH]; intros w attempt; [discriminate|].
  cbn [poll_loop]. unfold bind.
  destruct (poll_once service self job_id sleep_interval verbose attempt w)
    as [[[u|]|e] w1] eqn:Hp.
  - unfold ret. intros [= <- _]. eapply poll_once_returns_finished; eassumption.
  - apply IH.
  - discriminate.
Qed.

Lemma finished_status v :
  finished v = true ->
  status_of v = Some (JStr "SUCCEEDED") \/ status_of v = Some (JStr "FAILED").
Proof.
  unfold finished, is_terminal, eq_str.
  destruct (status_of v) as [[| | | |s| |]|]; try discriminate.
  intros [H|H]%orb_true_iff; apply String.eqb_eq in H; subst; auto.
Qed.

Lemma getitem_status v s : status_of v = Some s -> getitem v "status" = ret s.
Proof. destruct v; simpl; try discriminate. now intros ->. Qed.


End Flow.

(** * The properties at work on concrete services *)













Lemma base_url_trailing_slashes_stripped_witness :
  trigger_url (__init__ "http://localhost:8080//") "123e4567"
    = "http://localhost:8080/api/external-trigger/123e4567/trigger"
  /\ status_url (__init__ "http://localhost:8080//") "123e4567"
     = "http://localhost:8080/api/external-trigger/123e4567/status"
  /\ forall last i,
       doubled_at i (url_pieces "http://localhost:8080" "123e4567" last) = false.
Proof.
  destruct (base_url_trailing_slashes_stripped "http://localhost:8080" "123e4567" 2)
    as (Htrigger & Hstatus & _ & _ & _ & Hseams).
  split; [exact Htrigger|]. split; [exact Hstatus|].
  apply Hseams; [discriminate|reflexivity|reflexivity].
Defined.

(** C8 fails as stated: with the empty job identifier the trigger URL has a
    doubled separator where the identifier is put in. *)
Lemma doubled_separator_counterexample :
  trigger_url (__init__ "http://localhost:8080") ""
    = "http://localhost:8080/api/external-trigger//trigger"
  /\ trigger_url (__init__ "http://localhost:8080") ""
     = concat_str (url_pieces "http://localhost:8080" "" "/trigger")
  /\ doubled_at 3 (url_pieces "http://localhost:8080" "" "/trigger") = true.
Proof. repeat split; reflexivity. Qed.




(** * Further properties of the client *)

(** ** One pass of the loop, for any reply *)

Section AnyReply.

Variable service : nat -> Reply.
Variables (self : ExternalTriggerClient) (job_id : string).
Variables (sleep_interval : Z) (verbose : bool).

Lemma poll_once_after_request attempt w :
  poll_once service self job_id sleep_interval verbose attempt w =
    (fst (after_request sleep_interval verbose attempt (decode (service (sent w)))),
     mkWorld (S (sent w))
       (trace w ++ Get (status_url self job_id)
          :: snd (after_request sleep_interval verbose attempt
                    (decode (service (sent w)))))).
Proof.
  unfold poll_once, bind. rewrite get_job_status_decode.
  destruct (decode (service (sent w))) as [v|e]; [|reflexivity].
  cbn [after_request]. destruct (status_of v) as [s|] eqn:Hs.
  - rewrite (status_of_getitem _ _ _ Hs).
    destruct verbose.
    + rewrite _print_status_frame.
      destruct (fst (display attempt v)) as [[]|e]; cbn [fst snd sent trace].
      * unfold time_sleep, ret, raise, emit.
        destruct (is_terminal s); cbn [fst snd].
        { now rewrite <- app_assoc. }
        destruct (sleep_refused sleep_interval); cbn [fst snd sent trace];
          now rewrite <- !app_assoc.
      * now rewrite <- app_assoc.
    + unfold time_sleep, ret, raise, emit. cbn [fst snd].
      destruct (is_terminal s); cbn [fst snd]; [reflexivity|].
      destruct (sleep_refused sleep_interval); cbn [fst snd sent trace];
        now rewrite <- ?app_assoc.
  - rewrite status_of_none_getitem by assumption. reflexivity.
Qed.

End AnyReply.

(** ** What a pass adds to the trace *)

Lemma display_raises attempt v e :
  fst (display attempt v) = Raise e ->
  e = AttributeError \/ e = TypeError \/ e = ValueError \/ e = OverflowError
  \/ exists key, e = KeyError key /\ In key batch_keys.
Proof.
  unfold display, _print_status, dict_get, getitem, format_1f, print, emit, bind, ret, raise.
  destruct v; simpl; try (intros [= <-]; auto).
  repeat (case_match; simpl in *; simplify_eq); simpl; intros [= <-]; auto 6;
    right; right; right; right; eexists; (split; [reflexivity|]); simpl; auto 10.
Qed.

Lemma display_object_raises attempt d e :
  fst (display attempt (JObj d)) = Raise e ->
  e = TypeError \/ e = ValueError \/ e = OverflowError
  \/ exists key, e = KeyError key /\ In key batch_keys.
Proof.
  unfold display, _print_status, dict_get, getitem, format_1f, print, emit, bind, ret, raise.
  simpl.
  repeat (case_match; simpl in *; simplify_eq); simpl; intros [= <-]; auto 6;
    right; right; right; eexists; (split; [reflexivity|]); simpl; auto 10.
Qed.

Section PassEvents.

Variables (sleep_interval : Z) (verbose : bool) (attempt : Z) (decoded : Result JSON).

Lemma after_request_events :
  exists lines,
    (verbose = false -> lines = [])
    /\ ((fst (after_request sleep_interval verbose attempt decoded) = Ok None
         /\ snd (after_request sleep_interval verbose attempt decoded)
            = map Print lines ++ [Sleep sleep_interval])
        \/ (fst (after_request sleep_interval verbose attempt decoded) <> Ok None
            /\ snd (after_request sleep_interval verbose attempt decoded)
               = map Print lines)).
Proof.
  unfold after_request.
  destruct decoded as [v|e]; [|exists []; split; [auto|right; split; [discriminate|reflexivity]]].
  destruct (status_of v) as [s|];
    [|exists []; split; [auto|right; split; [discriminate|reflexivity]]].
  assert (Hshown : exists lines,
            (verbose = false -> lines = [])
            /\ snd (if verbose then display attempt v else (Ok tt, [])) = map Print lines).
  { destruct verbose.
    - destruct (display_prints attempt v) as [ls Hls]. exists ls. split; [discriminate|exact Hls].
    - exists []. split; reflexivity. }
  destruct Hshown as (lines & Hquiet & Hlines). exists lines. split; [exact Hquiet|].
  destruct (fst (if verbose then display attempt v else (Ok tt, []))) as [[]|e];
    [|right; split; [discriminate|exact Hlines]].
  destruct (is_terminal s); [right; split; [discriminate|exact Hlines]|].
  destruct (sleep_refused sleep_interval); [right; split; [discriminate|exact Hlines]|].
  left. cbn [fst snd]. now rewrite Hlines.
Qed.

End PassEvents.

Lemma Forall_polling_prints url sleep_interval lines :
  Forall (polling_event url sleep_interval) (map Print lines).
Proof.
  induction lines as [|l ls IH]; constructor; [|exact IH].
  right; right. now exists l.
Qed.

Lemma count_nil kind : count kind [] = 0%nat.
Proof. reflexivity. Qed.

Lemma count_cons kind e t :
  count kind (e :: t) = ((if kind e then 1 else 0) + count kind t)%nat.
Proof. unfold count. simpl. now destruct (kind e). Qed.

(** ** The wait, whatever the service answers *)

Section AnyService.

Variable service : nat -> Reply.
Variables (self : ExternalTriggerClient) (job_id : string).
Variables (max_attempts sleep_interval : Z) (verbose : bool).

Lemma poll_loop_only_polls remaining : forall attempt w,
  exists events,
    snd (poll_loop service self job_id max_attempts sleep_interval verbose
           remaining attempt w)
      = mkWorld (sent w + count is_get events) (trace w ++ events)
    /\ Forall (polling_event (status_url self job_id) sleep_interval) events
    /\ (count is_get events <= remaining)%nat
    /\ (count is_sleep events <= count is_get events)%nat
    /\ count is_post events = 0%nat
    /\ (verbose = false -> count is_print events = 0%nat)
    /\ slept events = Z.of_nat (count is_sleep events) * sleep_interval.
Proof.
  induction remaining as [|r IH]; intros attempt w.
  - exists []. cbn [poll_loop]. unfold raise. cbn [snd].
    rewrite app_nil_r, Nat.add_0_r. destruct w. repeat split; auto.
  - cbn [poll_loop]. unfold bind. rewrite poll_once_after_request.
    destruct (after_request_events sleep_interval verbose attempt
                (decode (service (sent w)))) as (lines & Hquiet & Hcase).
    assert (Hprints : forall kind, (forall l, kind (Print l) = false) ->
                        count kind (map Print lines) = 0%nat)
      by (intros; now apply count_map_print).
    assert (Hquiet' : verbose = false -> count is_print (map Print lines) = 0%nat)
      by (intros Hv; now rewrite (Hquiet Hv)).
    destruct Hcase as [[Hres Hev]|[Hres Hev]]; rewrite Hev.
    + rewrite Hres.
      destruct (IH (attempt + 1)
                  (mkWorld (S (sent w))
                     (trace w ++ Get (status_url self job_id)
                        :: map Print lines ++ [Sleep sleep_interval])))
        as (events & Hw & Hall & Hgets & Hsleeps & Hposts & Hpr & Hslept).
      exists (Get (status_url self job_id)
                :: map Print lines ++ [Sleep sleep_interval] ++ events).
      rewrite Hw. cbn [sent trace].
      rewrite !count_cons, !count_app, !count_cons, !Hprints, !count_nil by reflexivity.
      cbn [is_get is_sleep is_post is_print].
      split.
      { f_equal; [lia|].
        rewrite <- app_assoc, <- app_comm_cons, <- app_assoc. reflexivity. }
      split.
      { constructor; [now left|]. apply Forall_app. split.
        - apply Forall_polling_prints.
        - constructor; [right; now left|exact Hall]. }
      split; [lia|]. split; [lia|]. split; [lia|]. split.
      { intros Hv. rewrite (Hquiet' Hv), (Hpr Hv). reflexivity. }
      cbn [slept]. rewrite slept_app, slept_map_print, slept_app, Hslept.
      cbn [slept]. lia.
    + exists (Get (status_url self job_id) :: map Print lines).
      match goal with
      | |- snd ?run = _ /\ _ => assert (Hrun : snd run = mkWorld (S (sent w))
             (trace w ++ Get (status_url self job_id) :: map Print lines))
      end.
      { destruct (fst (after_request sleep_interval verbose attempt
                         (decode (service (sent w))))) as [[v|]|e];
          [reflexivity|congruence|reflexivity]. }
      rewrite Hrun.
      rewrite !count_cons, !Hprints by reflexivity.
      cbn [is_get is_sleep is_post is_print].
      split; [f_equal; lia|].
      split; [constructor; [now left|apply Forall_polling_prints]|].
      split; [lia|]. split; [lia|]. split; [lia|]. split.
      { intros Hv. now rewrite (Hquiet' Hv). }
      cbn [slept]. rewrite slept_map_print. reflexivity.
Qed.

End AnyService.

(** ** How a pass can end *)

Lemma decode_raises reply e : decode reply = Raise e -> request_error e.
Proof.
  unfold decode, request_error.
  destruct reply as [|code body|code why]; [intros [= <-]; auto| |];
    (destruct ((400 <=? code) && (code <? 600)) eqn:Hc;
     [intros [= <-]; do 4 right; exists code; split; [reflexivity|lia]|]).
  - destruct body; [discriminate|intros [= <-]; auto].
  - destruct why; intros [= <-]; auto.
Qed.

Section PassOutcome.

Variables (sleep_interval : Z) (verbose : bool) (attempt : Z) (decoded : Result JSON).

Lemma after_request_returns v :
  fst (after_request sleep_interval verbose attempt decoded) = Ok (Some v) ->
  decoded = Ok v /\ finished v = true.
Proof.
  unfold after_request, finished. destruct decoded as [u|e]; [|discriminate].
  destruct (status_of u) as [s|] eqn:Hs; [|discriminate].
  destruct (fst (if verbose then display attempt u else (Ok tt, []))) as [[]|e];
    [|discriminate].
  destruct (is_terminal s) eqn:Ht.
  - intros [= <-]. rewrite Hs. auto.
  - destruct (sleep_refused sleep_interval); discriminate.
Qed.

Lemma after_request_continues :
  fst (after_request sleep_interval verbose attempt decoded) = Ok None ->
  exists u, decoded = Ok u /\ pending u = true /\ 0 <= sleep_interval <= sleep_max
            /\ (verbose = true -> displayable attempt u).
Proof.
  unfold after_request, pending, displayable. destruct decoded as [u|e]; [|discriminate].
  destruct (status_of u) as [s|] eqn:Hs; [|discriminate].
  destruct verbose.
  - destruct (fst (display attempt u)) as [[]|e] eqn:Hd; [|discriminate].
    destruct (is_terminal s) eqn:Ht; [discriminate|].
    destruct (sleep_refused sleep_interval) eqn:Hi; [discriminate|].
    apply sleep_accepted in Hi.
    intros _. exists u. split; [reflexivity|]. split; [now rewrite Hs, Ht|].
    split; [exact Hi|]. intros _. exact Hd.
  - cbn [fst]. destruct (is_terminal s) eqn:Ht; [discriminate|].
    destruct (sleep_refused sleep_interval) eqn:Hi; [discriminate|].
    apply sleep_accepted in Hi.
    intros _. exists u. split; [reflexivity|]. split; [now rewrite Hs, Ht|].
    split; [exact Hi|]. discriminate.
Qed.

Lemma after_request_raises e :
  fst (after_request sleep_interval verbose attempt decoded) = Raise e ->
  decoded = Raise e \/ e = TypeError \/ e = ValueError \/ e = OverflowError
  \/ exists key, e = KeyError key.
Proof.
  unfold after_request. destruct decoded as [u|e'] eqn:Hdec.
  - destruct (status_of u) as [s|] eqn:Hs.
    + destruct u as [| | | | | |d]; try discriminate.
      destruct verbose.
      * destruct (fst (display attempt (JObj d))) as [[]|e'] eqn:Hd.
        -- destruct (is_terminal s); [discriminate|].
           destruct (sleep_refused sleep_interval) as [e'|] eqn:Hi; [|discriminate].
           intros [= <-]. destruct (sleep_refused_exn _ _ Hi) as [->| ->]; auto.
        -- intros [= <-].
           destruct (display_object_raises _ _ _ Hd) as [->|[->|[->|(key & -> & _)]]];
             eauto 6.
      * cbn [fst]. destruct (is_terminal s); [discriminate|].
        destruct (sleep_refused sleep_interval) as [e'|] eqn:Hi; [|discriminate].
        intros [= <-]. destruct (sleep_refused_exn _ _ Hi) as [->| ->]; auto.
    + intros [= <-]. destruct u; eauto 6.
  - intros [= <-]. auto.
Qed.

End PassOutcome.

(** ** What a wait does and how it ends, for any service *)

Section Outcomes.

Variable service : nat -> Reply.
Variables (self : ExternalTriggerClient) (job_id : string).
Variables (max_attempts sleep_interval : Z) (verbose : bool).

(** X1. Whatever the service answers, [wait_for_completion] only reads: the
    events it adds are GET requests to the status URL of its job, sleeps of
    [sleep_interval] seconds and printed lines, never a POST.  It sends at
    most [max_attempts] requests and sleeps at most once per request. *)
Theorem wait_only_polls (w : World) :
  exists events,
    snd (wait_for_completion service self job_id max_attempts sleep_interval verbose w)
      = mkWorld (sent w + count is_get events) (trace w ++ events)
    /\ Forall (polling_event (status_url self job_id) sleep_interval) events
    /\ (count is_get events <= Z.to_nat max_attempts)%nat
    /\ (count is_sleep events <= count is_get events)%nat
    /\ count is_post events = 0%nat
    /\ slept events = Z.of_nat (count is_sleep events) * sleep_interval.
Proof.
  unfold wait_for_completion.
  destruct (poll_loop_only_polls service self job_id max_attempts sleep_interval
              verbose (Z.to_nat max_attempts) 1 w)
    as (events & Hw & Hall & Hgets & Hsleeps & Hposts & _ & Hslept).
  exists events. auto 10.
Qed.

Lemma poll_loop_returns remaining : forall attempt w v w',
  poll_loop service self job_id max_attempts sleep_interval verbose
    remaining attempt w = (Ok v, w') ->
  finished v = true
  /\ exists n, sent w' = S n /\ (sent w <= n)%nat /\ decode (service n) = Ok v.
Proof.
  induction remaining as [|r IH]; intros attempt w v w'; [discriminate|].
  cbn [poll_loop]. unfold bind. rewrite poll_once_after_request.
  destruct (fst (after_request sleep_interval verbose attempt
                   (decode (service (sent w))))) as [[u|]|e] eqn:Hres.
  - unfold ret. intros [= <- <-].
    destruct (after_request_returns _ _ _ _ _ Hres) as [Hd Hf].
    split; [exact Hf|]. exists (sent w). auto.
  - intros Hrun. destruct (IH _ _ _ _ Hrun) as (Hf & n & Hn & Hle & Hd).
    split; [exact Hf|]. exists n. cbn [sent] in Hle. repeat split; auto. lia.
  - discriminate.
Qed.

(** X2. A payload that [wait_for_completion] returns is what the last
    request of the wait decoded to, and its status is SUCCEEDED or FAILED:
    the wait never returns a payload of an earlier poll, nor one that is not
    terminal. *)
Theorem wait_returns_last_reply (w : World) (v : JSON) (w' : World) :
  wait_for_completion service self job_id max_attempts sleep_interval verbose w
    = (Ok v, w') ->
  (status_of v = Some (JStr "SUCCEEDED") \/ status_of v = Some (JStr "FAILED"))
  /\ exists n, sent w' = S n /\ (sent w <= n)%nat /\ decode (service n) = Ok v.
Proof.
  intros Hrun. destruct (poll_loop_returns _ _ _ _ _ Hrun) as [Hf Hlast].
  split; [now apply finished_status|exact Hlast].
Qed.

Lemma poll_loop_timeout remaining : forall attempt w seconds w',
  poll_loop service self job_id max_attempts sleep_interval verbose
    remaining attempt w = (Raise (TimeoutError seconds), w') ->
  seconds = max_attempts * sleep_interval
  /\ sent w' = (sent w + remaining)%nat
  /\ (forall i, (i < remaining)%nat ->
        exists v, decode (service (sent w + i)) = Ok v /\ pending v = true)
  /\ ((0 < remaining)%nat -> 0 <= sleep_interval).
Proof.
  induction remaining as [|r IH]; intros attempt w seconds w'.
  - cbn [poll_loop]. unfold raise. intros [= <- <-].
    repeat split; [lia|intros i Hi; lia|intros Hr; lia].
  - cbn [poll_loop]. unfold bind. rewrite poll_once_after_request.
    destruct (fst (after_request sleep_interval verbose attempt
                     (decode (service (sent w))))) as [[u|]|e] eqn:Hres.
    + discriminate.
    + intros Hrun.
      destruct (after_request_continues _ _ _ _ Hres) as (u & Hd & Hp & Hi & _).
      destruct (IH _ _ _ _ Hrun) as (Hs & Hsent & Hall & _). cbn [sent] in Hsent, Hall.
      split; [exact Hs|]. split; [lia|]. split; [|intros _; apply Hi].
      intros [|i] Hlt.
      * rewrite Nat.add_0_r. eauto.
      * destruct (Hall i ltac:(lia)) as (v & Hv & Hpv).
        exists v. split; [|exact Hpv]. now replace (sent w + S i)%nat with (S (sent w) + i)%nat by lia.
    + intros [= -> <-].
      destruct (after_request_raises _ _ _ _ _ Hres) as [Hd|[H|[H|[H|[key H]]]]];
        try discriminate.
      apply decode_raises in Hd.
      destruct Hd as [H|[H|[H|[H|(code & H & _)]]]]; discriminate.
Qed.

(** X3. [wait_for_completion] raises the timeout error only when all of its
    [max_attempts] polls decoded to a payload whose status is present and
    not terminal; the error then carries [max_attempts * sleep_interval],
    and when a poll was made the interval is not negative. *)
Theorem timeout_means_all_polls_pending (w : World) (seconds : Z) (w' : World) :
  wait_for_completion service self job_id max_attempts sleep_interval verbose w
    = (Raise (TimeoutError seconds), w') ->
  seconds = max_attempts * sleep_interval
  /\ sent w' = (sent w + Z.to_nat max_attempts)%nat
  /\ (forall i, (i < Z.to_nat max_attempts)%nat ->
        exists v, decode (service (sent w + i)) = Ok v /\ pending v = true)
  /\ (0 < max_attempts -> 0 <= sleep_interval).
Proof.
  intros Hrun. destruct (poll_loop_timeout _ _ _ _ _ Hrun) as (Hs & Hsent & Hall & Hi).
  repeat split; auto. intros Hm. apply Hi. lia.
Qed.

Lemma poll_loop_raises remaining : forall attempt w e w',
  poll_loop service self job_id max_attempts sleep_interval verbose
    remaining attempt w = (Raise e, w') ->
  e = TimeoutError (max_attempts * sleep_interval)
  \/ (exists n, sent w' = S n /\ (sent w <= n)%nat /\ decode (service n) = Raise e)
  \/ e = TypeError \/ e = ValueError \/ e = OverflowError
  \/ exists key, e = KeyError key.
Proof.
  induction remaining as [|r IH]; intros attempt w e w'.
  - cbn [poll_loop]. unfold raise. intros [= <- <-]. auto.
  - cbn [poll_loop]. unfold bind. rewrite poll_once_after_request.
    destruct (fst (after_request sleep_interval verbose attempt
                     (decode (service (sent w))))) as [[u|]|e'] eqn:Hres.
    + discriminate.
    + intros Hrun. apply IH in Hrun. cbn [sent] in Hrun.
      destruct Hrun as [H|[(n & Hn & Hle & Hd)|H]]; auto.
      right; left. exists n. repeat split; auto. lia.
    + intros [= -> <-]. cbn [sent].
      destruct (after_request_raises _ _ _ _ _ Hres) as [Hd|H]; [|auto].
      right; left. exists (sent w). auto.
Qed.



End Outcomes.

Section Budget.

Variable service : nat -> Reply.
Variables (self : ExternalTriggerClient) (job_id : string).
Variables (sleep_interval : Z) (verbose : bool).

(** X5. A wait that is not verbose prints nothing, whatever the service
    answers and however the wait ends. *)
Theorem quiet_wait_prints_nothing (max_attempts : Z) (w : World) :
  count is_print
    (trace (snd (wait_for_completion service self job_id max_attempts
                   sleep_interval false w)))
  = count is_print (trace w).
Proof.
  unfold wait_for_completion.
  destruct (poll_loop_only_polls service self job_id max_attempts sleep_interval
              false (Z.to_nat max_attempts) 1 w)
    as (events & Hw & _ & _ & _ & _ & Hquiet & _).
  rewrite Hw. cbn [trace]. rewrite count_app, (Hquiet eq_refl). lia.
Qed.



(** X7. With a [sleep_interval] that [time.sleep] refuses the wait cannot
    go past a payload that is not terminal: after the first such poll (and
    its display when verbose) the exception of [time.sleep] is raised, no
    sleep happens and no second request is sent.  The exception is
    [ValueError] for a negative interval down to -9223372036 and
    [OverflowError] for an interval beyond 9223372036 either way. *)
Theorem refused_interval_raises (max_attempts : Z) (first : JSON) (e : exn) (w : World) :
  sleep_refused sleep_interval = Some e ->
  1 <= max_attempts ->
  decode (service (sent w)) = Ok first ->
  pending first = true ->
  (verbose = true -> displayable 1 first) ->
  wait_for_completion service self job_id max_attempts sleep_interval verbose w
    = (Raise e,
       mkWorld (S (sent w))
         (trace w ++ Get (status_url self job_id)
            :: (if verbose then snd (display 1 first) else [])))
  /\ (- sleep_max <= sleep_interval < 0 -> e = ValueError)
  /\ (sleep_interval < - sleep_max \/ sleep_max < sleep_interval -> e = OverflowError).
Proof.
  intros Hi Hm Hd Hp Hshow. split.
  - unfold wait_for_completion.
    destruct (Z.to_nat max_attempts) as [|r] eqn:Hn; [lia|].
    cbn [poll_loop]. unfold bind. rewrite poll_once_after_request, Hd.
    unfold after_request. unfold pending in Hp.
    destruct (status_of first) as [s|]; [|discriminate].
    apply negb_true_iff in Hp. rewrite Hp, Hi.
    destruct verbose.
    + pose proof (Hshow eq_refl) as Hok. unfold displayable in Hok.
      cbv zeta. rewrite !Hok. reflexivity.
    + reflexivity.
  - unfold sleep_refused in Hi.
    destruct ((sleep_interval <? - sleep_max) || (sleep_max <? sleep_interval)) eqn:Hrange.
    + injection Hi as <-. split; [lia|reflexivity].
    + destruct (sleep_interval <? 0) eqn:Hneg; [|discriminate].
      injection Hi as <-. split; [reflexivity|lia].
Qed.



End Budget.

(** ** The display *)

Section Display.

Variables (attempt : Z) (w : World).






End Display.

(** ** The trigger request *)

Section Trigger.

Variable service : nat -> Reply.
Variables (self : ExternalTriggerClient) (job_id : string).

Lemma trigger_job_decode (w : World) :
  trigger_job service self job_id w
    = (decode (service (sent w)),
       mkWorld (S (sent w)) (trace w ++ [Post (trigger_url self job_id)])).
Proof.
  unfold trigger_job, requests_post, send, bind, decode. simpl.
  destruct (service (sent w)) as [|code body|code why]; simpl; [reflexivity| |];
    unfold raise_for_status, bind;
    (destruct ((400 <=? code) && (code <? 600)); simpl; [reflexivity|]).
  - destruct body; reflexivity.
  - destruct why; reflexivity.
Qed.

(** X15. [trigger_job] sends exactly one POST, to the trigger URL of the
    job, whatever the reply, and treats the reply as [get_job_status] treats
    the reply to its GET: same payload returned, same exception raised.  A
    status code of 4xx or 5xx raises [HTTPError] whatever the body is. *)
Theorem trigger_job_one_post (w : World) :
  trigger_job service self job_id w
    = (decode (service (sent w)),
       mkWorld (S (sent w)) (trace w ++ [Post (trigger_url self job_id)]))
  /\ fst (trigger_job service self job_id w) = fst (get_job_status service self job_id w)
  /\ (forall code body,
        service (sent w) = Response code body ->
        400 <= code < 600 ->
        fst (trigger_job service self job_id w) = Raise (HTTPError code)).
Proof.
  rewrite trigger_job_decode, get_job_status_decode. cbn [fst].
  split; [reflexivity|]. split; [reflexivity|].
  intros code body -> Hc. unfold decode.
  assert (Hb : (400 <=? code) && (code <? 600) = true) by lia.
  now rewrite Hb.
Qed.

End Trigger.

(** ** The script as a whole *)

Lemma same_but_prints_refl w : same_but_prints w w.
Proof. split; reflexivity. Qed.

Lemma same_but_prints_print line w w' :
  same_but_prints w w' -> same_but_prints (emit (Print line) w) w'.
Proof.
  intros [Hs Ht]. split; [exact Hs|].
  unfold emit. cbn [trace]. rewrite List.filter_app, Ht. cbn. apply app_nil_r.
Qed.

Section Script.

Variable service : nat -> Reply.

(** X16. Without exactly one argument [main] prints its three usage lines
    and exits with status 1; no request is sent. *)
Theorem main_usage (args : list string) (w : World) :
  length args <> 2%nat ->
  main service args w = (Raise (SystemExit 1), mkWorld (sent w) (trace w ++ usage))
  /\ exit_status (fst (main service args w)) = 1.
Proof.
  intros Hlen.
  assert (Hrun : main service args w
                 = (Raise (SystemExit 1), mkWorld (sent w) (trace w ++ usage))).
  { destruct args as [|a [|b [|c rest]]]; try (simpl in Hlen; congruence);
      unfold main, bind, print, emit, sys_exit, raise, usage; cbn [sent trace];
      now rewrite <- !app_assoc. }
  rewrite Hrun. split; reflexivity.
Qed.

(** How a run of [main] with one argument ends, from the outcomes of its
    trigger and of its wait. *)
Lemma main_run (prog job_id : string) (w : World) :
  let run := main service [prog; job_id] w in
  match trigger_job service localhost job_id (announce job_id w) with
  | (Raise e, w1) =>
      fst run = Raise (match e with HTTPError _ => SystemExit 1 | _ => e end)
      /\ same_but_prints (snd run) w1
  | (Ok ack, w1) =>
      match wait_for_completion service localhost job_id 60 2 true (monitoring ack w1) with
      | (Ok final, w2) =>
          fst run = Raise (SystemExit (if eq_str (default JNull (status_of final)) "SUCCEEDED"
                                       then 0 else 1))
          /\ same_but_prints (snd run) w2
      | (Raise e, w2) =>
          fst run = Raise (match e with
                           | TimeoutError _ => SystemExit 2
                           | HTTPError _ => SystemExit 1
                           | _ => e
                           end)
          /\ same_but_prints (snd run) w2
      end
  end.
Proof.
  cbv zeta.
  destruct (trigger_job service localhost job_id (announce job_id w))
    as [[ack|e] w1] eqn:Htrig.
  - assert (Hmain : main service [prog; job_id] w =
      try_except
        (let* final_status := wait_for_completion service localhost job_id 60 2 true in
         let* _ := print (Text "") in
         let* _ := print (Text rule) in
         let* job_status := getitem final_status "status" in
         let* _ := print (FinishedLine job_status) in
         let* _ := print (Text rule) in
         let* _ := print (Text "") in
         let* _ := print (Text "Full response:") in
         let* _ := print (JsonDump final_status) in
         let* job_status := getitem final_status "status" in
         if eq_str job_status "SUCCEEDED" then sys_exit 0 else sys_exit 1)
        (fun e => match e with
                  | TimeoutError _ => Some (let* _ := print (TimeoutLine e) in sys_exit 2)
                  | HTTPError _ => Some (let* _ := print (StatusErrorLine e) in sys_exit 1)
                  | _ => None
                  end)
        (monitoring ack w1)).
    { unfold main. unfold bind at 1 2 3 4 5 6. unfold print at 1 2 3 4 5.
      fold (announce job_id w). change (__init__ "http://localhost:8080") with localhost.
      unfold try_except at 1. unfold bind at 1. rewrite Htrig.
      unfold bind at 1 2. unfold print at 1 2.
      unfold bind at 1 2 3. unfold print at 1 2 3. reflexivity. }
    rewrite Hmain. unfold try_except.
    match goal with
    | |- context [bind ?c ?k (monitoring ack w1)] =>
        change (bind c k (monitoring ack w1))
          with (match c (monitoring ack w1) with
                | (Ok a, w') => k a w'
                | (Raise e, w') => (Raise e, w')
                end)
    end.
    destruct (wait_for_completion service localhost job_id 60 2 true (monitoring ack w1))
      as [[final|e] w2] eqn:Hw.
    + pose proof (wait_returns_finished _ _ _ _ _ _ _ _ _ Hw) as Hf.
      destruct (finished_status _ Hf) as [Hs|Hs]; rewrite Hs;
        cbv beta iota; rewrite !(getitem_status _ _ Hs);
        (split; [reflexivity|]);
        unfold bind, print, ret, sys_exit, raise; cbn [fst snd eq_str String.eqb];
        repeat apply same_but_prints_print; apply same_but_prints_refl.
    + destruct e; cbn [fst snd];
        (split; [reflexivity|]);
        unfold bind, print, sys_exit, raise; cbn [fst snd];
        repeat apply same_but_prints_print; apply same_but_prints_refl.
  - unfold main, bind, print, try_except.
    fold (announce job_id w). change (__init__ "http://localhost:8080") with localhost.
    rewrite Htrig.
    destruct e; cbn [fst snd];
      (split; [reflexivity|]);
      unfold sys_exit, raise; cbn [fst snd];
      repeat apply same_but_prints_print; apply same_but_prints_refl.
Qed.

End Script.

Lemma same_but_prints_count kind a b :
  (forall line, kind (Print line) = false) ->
  same_but_prints a b -> count kind (trace a) = count kind (trace b).
Proof.
  intros Hk [_ Ht].
  rewrite <- (count_without_prints kind (trace a)), <- (count_without_prints kind (trace b))
    by assumption.
  now rewrite Ht.
Qed.

Lemma same_but_prints_slept a b :
  same_but_prints a b -> slept (trace a) = slept (trace b).
Proof.
  intros [_ Ht].
  rewrite <- (slept_without_prints (trace a)), <- (slept_without_prints (trace b)).
  now rewrite Ht.
Qed.

Lemma same_but_prints_announce job_id w : same_but_prints (announce job_id w) w.
Proof. unfold announce. repeat apply same_but_prints_print. apply same_but_prints_refl. Qed.

Lemma same_but_prints_monitoring ack w : same_but_prints (monitoring ack w) w.
Proof. unfold monitoring. repeat apply same_but_prints_print. apply same_but_prints_refl. Qed.

Section ScriptOutcome.

Variable service : nat -> Reply.

(** X17. A run of [main] with one argument never ends normally: it leaves
    with exit status 0, 1 or 2.  The status is 0 only when the trigger was
    acknowledged and the wait returned a payload whose status is SUCCEEDED,
    and 2 only when the trigger was acknowledged and the wait raised the
    timeout error after its 60 polls, with 120 seconds in its message. *)
Theorem main_exit_status_only_if (prog job_id : string) (w : World) :
  let run := main service [prog; job_id] w in
  (exit_status (fst run) = 0 \/ exit_status (fst run) = 1 \/ exit_status (fst run) = 2)
  /\ (forall u, fst run <> Ok u)
  /\ (exit_status (fst run) = 0 ->
      exists ack w1 final w2,
        trigger_job service localhost job_id (announce job_id w) = (Ok ack, w1)
        /\ wait_for_completion service localhost job_id 60 2 true (monitoring ack w1)
           = (Ok final, w2)
        /\ status_of final = Some (JStr "SUCCEEDED"))
  /\ (exit_status (fst run) = 2 ->
      exists ack w1 w2,
        trigger_job service localhost job_id (announce job_id w) = (Ok ack, w1)
        /\ wait_for_completion service localhost job_id 60 2 true (monitoring ack w1)
           = (Raise (TimeoutError 120), w2)).
Proof.
  cbv zeta. pose proof (main_run service prog job_id w) as Hrun. cbv zeta in Hrun.
  destruct (trigger_job service localhost job_id (announce job_id w))
    as [[ack|e] w1] eqn:Htrig.
  - destruct (wait_for_completion service localhost job_id 60 2 true (monitoring ack w1))
      as [[final|e] w2] eqn:Hw.
    + destruct Hrun as [Hres _]. rewrite Hres.
      pose proof (wait_returns_finished _ _ _ _ _ _ _ _ _ Hw) as Hf.
      destruct (finished_status _ Hf) as [Hs|Hs]; rewrite Hs; cbn.
      * split; [auto|]. split; [discriminate|]. split; [|discriminate].
        intros _. exists ack, w1, final, w2. auto.
      * split; [auto|]. split; [discriminate|]. split; discriminate.
    + destruct Hrun as [Hres _]. rewrite Hres.
      pose proof (poll_loop_raises _ _ _ _ _ _ _ _ _ _ _ Hw) as He.
      assert (Hcases :
        e = TimeoutError (60 * 2) \/ (exists c, e = HTTPError c)
        \/ (forall s, e <> TimeoutError s) /\ (forall c, e <> HTTPError c)
            /\ (forall c, e <> SystemExit c)).
      { destruct He as [->|[(n & _ & _ & Hd)|[->|[->|[->|[key ->]]]]]]; auto;
          try (right; right; repeat split; intros; discriminate).
        apply decode_raises in Hd.
        destruct Hd as [->|[->|[->|[->|(c & -> & _)]]]]; eauto;
          right; right; repeat split; intros; discriminate. }
      destruct Hcases as [->|[[c ->]|(Ht & Hh & Hx)]]; cbn.
      * split; [auto|]. split; [discriminate|]. split; [discriminate|].
        intros _. exists ack, w1, w2. auto.
      * split; [auto|]. split; [discriminate|]. split; discriminate.
      * destruct e; try (now destruct (Ht seconds)); try (now destruct (Hh status_code));
          try (now destruct (Hx code)); cbn;
          (split; [auto|]); (split; [discriminate|]); split; discriminate.
  - destruct Hrun as [Hres _]. rewrite Hres.
    pose proof (trigger_job_decode service localhost job_id (announce job_id w)) as Hdec.
    rewrite Htrig in Hdec. injection Hdec as Hdec _. symmetry in Hdec.
    destruct (decode_raises _ _ Hdec) as [->|[->|[->|[->|(c & -> & _)]]]]; cbn;
      (split; [auto|]); (split; [discriminate|]); split; discriminate.
Qed.

(** X18. A run of [main] with one argument sends exactly one POST and then
    at most 60 GETs, and sleeps 120 seconds at most, whatever the service
    answers. *)
Theorem main_request_budget (prog job_id : string) (w : World) :
  let run := main service [prog; job_id] w in
  count is_post (trace (snd run)) = S (count is_post (trace w))
  /\ (count is_get (trace (snd run)) <= count is_get (trace w) + 60)%nat
  /\ (sent (snd run) <= sent w + 61)%nat
  /\ slept (trace w) <= slept (trace (snd run)) <= slept (trace w) + 120.
Proof.
  cbv zeta. pose proof (main_run service prog job_id w) as Hrun. cbv zeta in Hrun.
  pose proof (trigger_job_decode service localhost job_id (announce job_id w)) as Htrig.
  pose proof (same_but_prints_announce job_id w) as Ha.
  assert (Hsent : sent (announce job_id w) = sent w) by apply Ha.
  rewrite Htrig in Hrun.
  set (w1 := mkWorld (S (sent (announce job_id w)))
               (trace (announce job_id w) ++ [Post (trigger_url localhost job_id)])) in *.
  assert (Hposts1 : count is_post (trace w1) = S (count is_post (trace w))).
  { unfold w1. cbn [trace]. rewrite count_app.
    rewrite (same_but_prints_count is_post _ _ ltac:(reflexivity) Ha).
    unfold count at 2. simpl. lia. }
  assert (Hgets1 : count is_get (trace w1) = count is_get (trace w)).
  { unfold w1. cbn [trace]. rewrite count_app.
    rewrite (same_but_prints_count is_get _ _ ltac:(reflexivity) Ha).
    unfold count at 2. simpl. lia. }
  assert (Hslept1 : slept (trace w1) = slept (trace w)).
  { unfold w1. cbn [trace]. rewrite slept_app, (same_but_prints_slept _ _ Ha).
    simpl. lia. }
  assert (Hsent1 : sent w1 = S (sent w)) by (unfold w1; cbn [sent]; lia).
  destruct (decode (service (sent (announce job_id w)))) as [ack|e].
  - pose proof (same_but_prints_monitoring ack w1) as Hm.
    destruct (poll_loop_only_polls service localhost job_id 60 2 true
                (Z.to_nat 60) 1 (monitoring ack w1))
      as (events & Hw2 & _ & Hgets & Hsleeps & Hposts & _ & Hslept).
    fold (wait_for_completion service localhost job_id 60 2 true (monitoring ack w1))
      in Hw2.
    assert (Hfinal : same_but_prints (snd (main service [prog; job_id] w))
                       (snd (wait_for_completion service localhost job_id 60 2 true
                               (monitoring ack w1)))).
    { destruct (wait_for_completion service localhost job_id 60 2 true
                  (monitoring ack w1)) as [[final|e] w2]; apply Hrun. }
    rewrite Hw2 in Hfinal.
    rewrite (same_but_prints_count is_post _ _ ltac:(reflexivity) Hfinal).
    rewrite (same_but_prints_count is_get _ _ ltac:(reflexivity) Hfinal).
    rewrite (same_but_prints_slept _ _ Hfinal).
    destruct Hfinal as [-> _]. cbn [sent trace].
    rewrite !count_app, slept_app, Hposts, Hslept.
    rewrite (same_but_prints_count is_post _ _ ltac:(reflexivity) Hm).
    rewrite (same_but_prints_count is_get _ _ ltac:(reflexivity) Hm).
    rewrite (same_but_prints_slept _ _ Hm).
    assert (Hsentm : sent (monitoring ack w1) = sent w1) by apply Hm.
    rewrite Hsentm, Hposts1, Hgets1, Hslept1, Hsent1.
    change (Z.to_nat 60) with 60%nat in Hgets.
    repeat split; lia.
  - destruct Hrun as [_ Hfinal].
    rewrite (same_but_prints_count is_post _ _ ltac:(reflexivity) Hfinal).
    rewrite (same_but_prints_count is_get _ _ ltac:(reflexivity) Hfinal).
    rewrite (same_but_prints_slept _ _ Hfinal).
    destruct Hfinal as [-> _].
    rewrite Hposts1, Hgets1, Hslept1, Hsent1. repeat split; lia.
Qed.

End ScriptOutcome.

(** ** The base URL and the request URLs *)

Lemma ends_with_slash_cons c s :
  s <> EmptyString -> ends_with_slash (String c s) = ends_with_slash s.
Proof. destruct s; [contradiction|reflexivity]. Qed.

Lemma rstrip_slash_cons c s :
  rstrip_slash (String c s)
  = match rstrip_slash s with
    | EmptyString => if Ascii.eqb c slash then EmptyString else String c EmptyString
    | rest => String c rest
    end.
Proof. reflexivity. Qed.

(** X19. [rstrip_slash s] is [s] without its trailing separators and
    nothing else is removed: [s] is the result followed by separators only,
    the result has no trailing separator, a string without a trailing
    separator is left as it is, and stripping twice is stripping once. *)
Theorem rstrip_slash_spec (s : string) :
  (exists n, s = rstrip_slash s +:+ slashes n)
  /\ ends_with_slash (rstrip_slash s) = false
  /\ (ends_with_slash s = false -> rstrip_slash s = s)
  /\ rstrip_slash (rstrip_slash s) = rstrip_slash s.
Proof.
  assert (Hsuffix : exists n, s = rstrip_slash s +:+ slashes n).
  { induction s as [|c s [n IH]]; [now exists 0%nat|].
    cbn [rstrip_slash]. destruct (rstrip_slash s) as [|c' r] eqn:Hr.
    - destruct (Ascii.eqb c slash) eqn:Hc.
      + apply Ascii.eqb_eq in Hc. subst c. exists (S n). now rewrite IH at 1.
      + exists n. now rewrite IH at 1.
    - exists n. rewrite !append_cons. now rewrite IH at 1. }
  assert (Hfixed : forall t, ends_with_slash t = false -> rstrip_slash t = t).
  { induction t as [|c t IH]; [reflexivity|].
    destruct t as [|c' t'].
    - cbn. now intros ->.
    - intros He. rewrite ends_with_slash_cons in He by discriminate.
      rewrite rstrip_slash_cons, (IH He). reflexivity. }
  split; [exact Hsuffix|]. split; [apply rstrip_slash_no_trailing|].
  split; [apply Hfixed|]. apply Hfixed, rstrip_slash_no_trailing.
Qed.

Lemma length_append_str (s t : string) :
  String.length (s +:+ t) = (String.length s + String.length t)%nat.
Proof. induction s as [|c s IH]; [reflexivity|]. rewrite append_cons. cbn. now rewrite IH. Qed.

Lemma append_inv_head (p s t : string) : p +:+ s = p +:+ t -> s = t.
Proof.
  induction p as [|c p IH]; [auto|]. rewrite !append_cons. intros [= H]. auto.
Qed.

Lemma append_inv_tail (t : string) : forall s1 s2, s1 +:+ t = s2 +:+ t -> s1 = s2.
Proof.
  induction s1 as [|c s1 IH]; intros [|c2 s2] H.
  - reflexivity.
  - apply (f_equal String.length) in H.
    rewrite !length_append_str in H. cbn [String.length] in H. lia.
  - apply (f_equal String.length) in H.
    rewrite !length_append_str in H. cbn [String.length] in H. lia.
  - rewrite !append_cons in H. injection H as -> H. f_equal. now apply IH.
Qed.

Lemma trigger_suffix_not_status : forall j1 j2, j1 +:+ "/trigger" <> j2 +:+ "/status".
Proof.
  induction j1 as [|c j1 IH]; intros [|c2 j2] H.
  - discriminate.
  - assert (Hlen := f_equal String.length H).
    rewrite !length_append_str in Hlen. cbn [String.length] in Hlen.
    destruct j2; [discriminate|cbn [String.length] in Hlen; lia].
  - assert (Hlen := f_equal String.length H).
    rewrite !length_append_str in Hlen. cbn [String.length] in Hlen. lia.
  - rewrite !append_cons in H. injection H as _ H. now apply IH in H.
Qed.

(** X20. A client never sends the requests of two jobs to the same URL:
    the trigger URL and the status URL determine the job identifier, and no
    trigger URL is a status URL. *)
Theorem request_urls_determine_job (self : ExternalTriggerClient) (j1 j2 : string) :
  (trigger_url self j1 = trigger_url self j2 -> j1 = j2)
  /\ (status_url self j1 = status_url self j2 -> j1 = j2)
  /\ trigger_url self j1 <> status_url self j2.
Proof.
  unfold trigger_url, status_url. repeat split.
  - intros H. apply append_inv_head, append_inv_head in H.
    now apply append_inv_tail in H.
  - intros H. apply append_inv_head, append_inv_head in H.
    now apply append_inv_tail in H.
  - intros H. apply append_inv_head, append_inv_head in H.
    now apply trigger_suffix_not_status in H.
Qed.

(** * The further properties on concrete services *)

Lemma wait_returns_last_reply_witness :
  (status_of failed = Some (JStr "SUCCEEDED") \/ status_of failed = Some (JStr "FAILED"))
  /\ exists n,
       sent (snd (wait_for_completion two_then_failed localhost "job" 3 2 true w0)) = S n
       /\ (sent w0 <= n)%nat
       /\ decode (two_then_failed n) = Ok failed.
Proof.
  apply (wait_returns_last_reply two_then_failed localhost "job" 3 2 true w0 failed
           (snd (wait_for_completion two_then_failed localhost "job" 3 2 true w0))).
  computed_run.
Defined.

Lemma timeout_means_all_polls_pending_witness :
  6 = 3 * 2
  /\ sent (snd (wait_for_completion (always enqueued) localhost "job" 3 2 false w0))
     = (sent w0 + Z.to_nat 3)%nat
  /\ (forall i, (i < Z.to_nat 3)%nat ->
        exists v, decode (always enqueued (sent w0 + i)) = Ok v /\ pending v = true)
  /\ (0 < 3 -> 0 <= 2).
Proof.
  apply (timeout_means_all_polls_pending (always enqueued) localhost "job" 3 2 false w0 6
           (snd (wait_for_completion (always enqueued) localhost "job" 3 2 false w0))).
  computed_run.
Defined.



Lemma refused_interval_raises_witness :
  wait_for_completion (always enqueued) localhost "job" 3 (-1) true w0
  = (Raise ValueError,
     mkWorld 1 [Get (status_url localhost "job");
                Print (StatusLine 1 (JStr "Unknown") (JStr "Unknown") (JStr "ENQUEUED"))])
  /\ wait_for_completion (always enqueued) localhost "job" 3 (10 ^ 20) false w0
     = (Raise OverflowError, mkWorld 1 [Get (status_url localhost "job")]).
Proof.
  split.
  - apply (refused_interval_raises (always enqueued) localhost "job" (-1) true 3
             enqueued ValueError w0).
    + reflexivity.
    + lia.
    + reflexivity.
    + reflexivity.
    + intros _. vm_compute. reflexivity.
  - apply (refused_interval_raises (always enqueued) localhost "job" (10 ^ 20) false 3
             enqueued OverflowError w0).
    + reflexivity.
    + lia.
    + reflexivity.
    + reflexivity.
    + discriminate.
Defined.








Lemma trigger_job_one_post_witness :
  trigger_job not_found localhost "job" w0
  = (Raise (HTTPError 404), mkWorld 1 [Post (trigger_url localhost "job")])
  /\ fst (trigger_job not_found localhost "job" w0) = Raise (HTTPError 404).
Proof.
  destruct (trigger_job_one_post not_found localhost "job" w0) as (Hrun & _ & Herror).
  split; [exact Hrun|]. apply (Herror 404 None); [reflexivity|lia].
Defined.

Lemma main_usage_witness :
  main not_found ["external-trigger-example.py"] w0
  = (Raise (SystemExit 1), mkWorld 0 usage)
  /\ exit_status (fst (main not_found ["external-trigger-example.py"] w0)) = 1.
Proof.
  apply (main_usage not_found ["external-trigger-example.py"] w0).
  simpl. lia.
Defined.

Lemma main_exit_status_only_if_witness :
  exists ack w1 final w2,
    trigger_job (triggered_then [ok enqueued] (ok succeeded)) localhost "job"
      (announce "job" w0) = (Ok ack, w1)
    /\ wait_for_completion (triggered_then [ok enqueued] (ok succeeded)) localhost "job"
         60 2 true (monitoring ack w1) = (Ok final, w2)
    /\ status_of final = Some (JStr "SUCCEEDED").
Proof.
  destruct (main_exit_status_only_if (triggered_then [ok enqueued] (ok succeeded))
              "external-trigger-example.py" "job" w0) as (_ & _ & Hzero & _).
  apply Hzero. vm_compute. reflexivity.
Defined.

Lemma rstrip_slash_spec_witness :
  rstrip_slash "http://localhost:8080" = "http://localhost:8080".
Proof.
  destruct (rstrip_slash_spec "http://localhost:8080") as (_ & _ & Hfixed & _).
  apply Hfixed. reflexivity.
Defined.

Lemma request_urls_determine_job_witness :
  trigger_url localhost "job-1" <> trigger_url localhost "job-2"
  /\ status_url localhost "job-1" <> status_url localhost "job-2".
Proof.
  destruct (request_urls_determine_job localhost "job-1" "job-2") as (Htrigger & Hstatus & _).
  split; intros H; [apply Htrigger in H|apply Hstatus in H]; discriminate.
Defined.
